(** * passport-instagram: the Instagram strategy of [lib/strategy.js]

    A shallow embedding of the three functions of the file, the
    constructor [Strategy], [Strategy.prototype.userProfile] and
    [Strategy.prototype._convertProfileFields], followed by the properties
    the specification states about them.

    Conventions.
    - A JavaScript string is a [string] holding its UTF-16 code units, each
      written as in UTF-8 (one to three bytes); ASCII text is itself.
    - [undefined] is [None] wherever a value may be missing.
    - What the file [require]s ([url], [passport-oauth2]) and the built-in
      [JSON] are not part of the repository: the strategy is defined over
      a [Runtime] that provides them, and what is proved of it is proved
      for every runtime.  [Module Node] describes the runtime the
      strategy is written for; the examples are evaluated on it, and a
      statement that is about Node says so. *)

From Stdlib Require Import Ascii NArith.
From stdpp Require Import base option strings list gmap.

(** ** Values read out of the field map *)

(** What [map[f]] can evaluate to inside [_convertProfileFields]: a name of
    the map, a list of names, or a member the object literal inherits from
    [Object.prototype]. *)
Inductive value : Type :=
  | undefined
  | str (s : string)
  | array (items : list string)
  | builtin_function (name : string)
  | builtin_object.

(** [ToString], as [Array.prototype.join] applies it to an element:
    [undefined] gives the empty string, an array is joined with commas, a
    built-in function prints as V8 prints native code, and a plain object
    prints as [[object Object]]. *)
Definition ToString (v : value) : string :=
  match v with
  | undefined => ""
  | str s => s
  | array items => String.concat "," items
  | builtin_function name => "function " +:+ name +:+ "() { [native code] }"
  | builtin_object => "[object Object]"
  end.

(** [fields.join(sep)] *)
Definition join (sep : string) (fields : list value) : string :=
  String.concat sep (ToString <$> fields).

(** The own members of [Object.prototype] in V8.  Every object literal has
    it as prototype, so [o[k]] finds them when [o] has no own [k];
    [__proto__] answers with the prototype object itself. *)
Definition Object_prototype : gmap string value :=
  {[ "constructor" := builtin_function "Object";
     "__defineGetter__" := builtin_function "__defineGetter__";
     "__defineSetter__" := builtin_function "__defineSetter__";
     "hasOwnProperty" := builtin_function "hasOwnProperty";
     "__lookupGetter__" := builtin_function "__lookupGetter__";
     "__lookupSetter__" := builtin_function "__lookupSetter__";
     "isPrototypeOf" := builtin_function "isPrototypeOf";
     "propertyIsEnumerable" := builtin_function "propertyIsEnumerable";
     "toString" := builtin_function "toString";
     "valueOf" := builtin_function "valueOf";
     "__proto__" := builtin_object;
     "toLocaleString" := builtin_function "toLocaleString" ]}.

(** [o[k]] for an object literal [o]: the own property, else the inherited
    one, else [undefined]. *)
Definition get (o : gmap string value) (k : string) : value :=
  match o !! k with
  | Some v => v
  | None => default undefined (Object_prototype !! k)
  end.

(** ** [Strategy.prototype._convertProfileFields] (lines 113-136) *)

Module ConvertProfileFields.

(** [var map = { ... }] *)
Definition map : gmap string value :=
  {[ "id" := str "id";
     "username" := str "username";
     "account_type" := str "account_type";
     "media_count" := str "media_count" ]}.

(** The callback of [profileFields.forEach], over the array [fields] it
    pushes to: [f] itself when [typeof map[f] === 'undefined'], every
    element of [map[f]] when [Array.isArray(map[f])], else [map[f]]. *)
Definition push (map : gmap string value) (fields : list value) (f : string)
  : list value :=
  match get map f with
  | undefined => fields ++ [str f]
  | array names => fields ++ (str <$> names)
  | v => fields ++ [v]
  end.

(** What the callback pushes for [f]. *)
Definition contribution (map : gmap string value) (f : string) : list value :=
  match get map f with
  | undefined => [str f]
  | array names => str <$> names
  | v => [v]
  end.

End ConvertProfileFields.

Definition _convertProfileFields (profileFields : list string) : string :=
  let map := ConvertProfileFields.map in
  let fields := foldl (ConvertProfileFields.push map) [] profileFields in
  join "," fields.

(** ** Exceptions and completions *)

(** The error objects the language and its built-ins throw here, and,
    by the name of its class, any other one that code outside the file
    throws.  Their message text is not modelled. *)
Inductive exn : Type :=
  | SyntaxError
  | TypeError
  | OtherError (name : string).

Inductive completion (A : Type) : Type :=
  | Normal (a : A)
  | Throw (e : exn).
Arguments Normal {A} a.
Arguments Throw {A} e.

#[global] Instance completion_ret : MRet completion := @Normal.
#[global] Instance completion_bind : MBind completion :=
  fun A B f c => match c with Normal a => f a | Throw e => Throw e end.

(** ** JSON documents *)

#[warnings="-register-all"]
Inductive json : Type :=
  | JNull
  | JBool (b : bool)
  | JNumber (literal : string)
  | JString (s : string)
  | JArray (items : list json)
  | JObject (members : list (string * json)).

(** A number is kept as the literal that denotes it: the strategy copies
    numbers and never computes with them.  The members of an object are in
    the order of the text; a key written twice keeps its last value. *)
Definition own (members : list (string * json)) (k : string) : option json :=
  foldl (fun found m => if decide (m.1 = k) then Some m.2 else found)
        None members.

(** [doc.k] for a key [k] that no built-in prototype defines (the keys the
    strategy reads are [id], [full_name], [last_name], [first_name] and
    [username]): reading a property of [null] throws a [TypeError], an
    object answers with its own member, and a boolean, number, string or
    array has no such property. *)
Definition Get (doc : json) (k : string) : completion (option json) :=
  match doc with
  | JNull => Throw TypeError
  | JObject members => Normal (own members k)
  | _ => Normal None
  end.

(** ** Objects of the strategy *)

(** The object [url.parse] returns and [url.format] takes, with the
    properties Node documents for it.  A property that is [null] is
    [None]. *)
Module Url.
Record t : Type := make {
  protocol : option string;
  slashes : bool;
  auth : option string;
  host : option string;
  port : option string;
  hostname : option string;
  hash : option string;
  search : option string;
  query : option string;
  pathname : option string;
  path : option string;
  href : string;
}.

(** [url.search = s]: an assignment to the one property, the others
    keep their values. *)
Definition set_search (url : t) (s : string) : t :=
  {| protocol := protocol url; slashes := slashes url; auth := auth url;
     host := host url; port := port url; hostname := hostname url;
     hash := hash url; search := Some s; query := query url;
     pathname := pathname url; path := path url; href := href url |}.
End Url.

(** The [options] argument of the constructor: the three options its
    documentation lists and the four it gives a default. *)
Module Options.
Record t : Type := make {
  clientID : option string;
  clientSecret : option string;
  callbackURL : option string;
  authorizationURL : option string;
  tokenURL : option string;
  profileURL : option string;
  profileFields : option (list string);
}.

(** [{}] *)
Definition empty : t :=
  {| clientID := None; clientSecret := None; callbackURL := None;
     authorizationURL := None; tokenURL := None; profileURL := None;
     profileFields := None |}.
End Options.

(** [x || d] for an option that holds a string: the empty string is falsy
    like [undefined]. *)
Definition or_string (x : option string) (d : string) : string :=
  match x with
  | Some s => if decide (s = "") then d else s
  | None => d
  end.

(** [x || d] for an option that holds an array: every array is truthy, the
    empty one too. *)
Definition or_array {A : Type} (x : option (list A)) (d : list A) : list A :=
  match x with
  | Some l => l
  | None => d
  end.

(** The normalized profile [userProfile] builds. *)
Module Profile.
Record name_t : Type := make_name {
  familyName : option json;
  givenName : option json;
}.

Record t : Type := make {
  provider : string;
  id : option json;
  displayName : option json;
  name : name_t;
  username : option json;
  _raw : string;
  _json : json;
}.
End Profile.

(** ** The runtime *)

(** What [lib/strategy.js] takes from outside the repository.
    - [OAuth2Strategy options verify] is [OAuth2Strategy.call(this,
      options, verify)], the inherited constructor of [passport-oauth2]:
      it may throw, and otherwise leaves the engine [this._oauth2].
    - [oauth2_get engine url accessToken] is what the engine hands to the
      callback of [this._oauth2.get]: [err], which is [null] or an error
      object, and [body].
    - [uri_parse], [uri_format] are [url.parse] and [url.format].
    - [JSON_parse] is [JSON.parse]. *)
Class Runtime : Type := {
  Verify : Type;
  OAuth2 : Type;
  oauth_error : Type;
  OAuth2Strategy : Options.t -> option Verify -> completion OAuth2;
  oauth2_get : OAuth2 -> string -> string -> option oauth_error * string;
  uri_parse : string -> Url.t;
  uri_format : Url.t -> string;
  JSON_parse : string -> completion json;
}.

(** The first argument [userProfile] gives to [done], over the type of the
    engine's errors: an [InternalOAuthError] it builds, or an exception it
    caught. *)
Inductive error (E : Type) : Type :=
  | InternalOAuthError (message : string) (oauthError : E)
  | Caught (e : exn).
Arguments InternalOAuthError {E} message oauthError.
Arguments Caught {E} e.

(** What [userProfile] does that its caller can observe, in order.  The
    continuation [done] is the caller's: [callback] and [userProfile]
    take it to return, [callback_done] and [userProfile_done] below follow
    one that may throw. *)
Inductive event (E : Type) : Type :=
  | oauth2_get_call (url accessToken : string)
  | JSON_parse_call (text : string)
  | done_call (err : option (error E)) (profile : option Profile.t).
Arguments oauth2_get_call {E} url accessToken.
Arguments JSON_parse_call {E} text.
Arguments done_call {E} err profile.

(** [this], as the constructor leaves it, over the type of the engine. *)
Module This.
Record t (O : Type) : Type := make {
  _oauth2 : O;
  name : string;
  _profileURL : string;
  _profileFields : list string;
}.
Arguments make {O} _ _ _ _.
Arguments _oauth2 {O} _.
Arguments name {O} _.
Arguments _profileURL {O} _.
Arguments _profileFields {O} _.
End This.

Section Strategy.
Context {R : Runtime}.

(** *** [Strategy] (lines 44-53) *)

(** The options after lines 45-47. *)
Definition defaulted (options : option Options.t) : Options.t :=
  let options := default Options.empty options in
  {| Options.clientID := Options.clientID options;
     Options.clientSecret := Options.clientSecret options;
     Options.callbackURL := Options.callbackURL options;
     Options.authorizationURL :=
       Some (or_string (Options.authorizationURL options)
                       "https://api.instagram.com/oauth/authorize/");
     Options.tokenURL :=
       Some (or_string (Options.tokenURL options)
                       "https://api.instagram.com/oauth/access_token");
     Options.profileURL := Options.profileURL options;
     Options.profileFields := Options.profileFields options |}.

Definition Strategy (options : option Options.t) (verify : option Verify)
  : completion (This.t OAuth2) :=
  let options := defaulted options in
  _oauth2 ← OAuth2Strategy options verify;
  mret {| This._oauth2 := _oauth2;
          This.name := "instagram";
          This._profileURL :=
            or_string (Options.profileURL options)
                      "https://graph.instagram.com/me";
          This._profileFields :=
            or_array (Options.profileFields options) ["id"; "username"] |}.

(** *** [Strategy.prototype.userProfile] (lines 75-104) *)

(** Lines 76-81: the URL of the request.  [this._profileFields] is an
    array, so the test of line 77 holds. *)
Definition request_url (this : This.t OAuth2) : string :=
  let url := uri_parse (This._profileURL this) in
  let fields := _convertProfileFields (This._profileFields this) in
  let url :=
    if decide (fields = "") then url
    else Url.set_search url
           ((match Url.search url with
             | Some search =>
                 if decide (search = "") then "" else search +:+ "&"
             | None => ""
             end) +:+ "fields=" +:+ fields) in
  uri_format url.

(** Lines 87-97: the body of the [try], up to the profile. *)
Definition parse_profile (body : string) : completion Profile.t :=
  json ← JSON_parse body;
  id ← Get json "id";
  displayName ← Get json "full_name";
  familyName ← Get json "last_name";
  givenName ← Get json "first_name";
  username ← Get json "username";
  mret {| Profile.provider := "instagram";
          Profile.id := id;
          Profile.displayName := displayName;
          Profile.name := {| Profile.familyName := familyName;
                             Profile.givenName := givenName |};
          Profile.username := username;
          Profile._raw := body;
          Profile._json := json |}.

(** Lines 83-103: the callback given to [this._oauth2.get].  The call of
    line 99 stands inside the [try]; [done] returning, nothing is caught
    there. *)
Definition callback (err : option oauth_error) (body : string)
  : list (event oauth_error) :=
  match err with
  | Some err =>
      [done_call (Some (InternalOAuthError "failed to fetch user profile" err))
                 None]
  | None =>
      JSON_parse_call body ::
      match parse_profile body with
      | Normal profile => [done_call None (Some profile)]
      | Throw e => [done_call (Some (Caught e)) None]
      end
  end.

Definition userProfile (this : This.t OAuth2) (accessToken : string)
  : list (event oauth_error) :=
  let url := request_url this in
  let (err, body) := oauth2_get (This._oauth2 this) url accessToken in
  oauth2_get_call url accessToken :: callback err body.

(** *** The same with a [done] that may throw

    [done err profile] tells whether that call of [done] returns or what
    it throws.  A function gives its calls of [done], in order, and how it
    ends itself. *)

(** Lines 86-99: the [try] block.  The call of line 99 is part of it. *)
Definition try_block (done : option (error oauth_error) -> option Profile.t
                             -> completion unit)
    (body : string) : list (event oauth_error) * completion unit :=
  match parse_profile body with
  | Normal profile =>
      ([done_call None (Some profile)], done None (Some profile))
  | Throw e => ([], Throw e)
  end.

(** Lines 83-103.  Line 84 returns what [done] returns, outside the [try];
    the [catch] of lines 100-102 gets what the [try] block threw, be it
    thrown by [JSON.parse], by a property read or by [done], and calls
    [done] with it; what that call throws leaves the callback. *)
Definition callback_done (done : option (error oauth_error) -> option Profile.t
                                 -> completion unit)
    (err : option oauth_error) (body : string)
  : list (event oauth_error) * completion unit :=
  match err with
  | Some err =>
      let error := InternalOAuthError "failed to fetch user profile" err in
      ([done_call (Some error) None], done (Some error) None)
  | None =>
      match try_block done body with
      | (calls, Normal _) => (JSON_parse_call body :: calls, Normal tt)
      | (calls, Throw e) =>
          (JSON_parse_call body :: calls ++ [done_call (Some (Caught e)) None],
           done (Some (Caught e)) None)
      end
  end.

Definition userProfile_done (done : option (error oauth_error)
                                     -> option Profile.t -> completion unit)
    (this : This.t OAuth2) (accessToken : string)
  : list (event oauth_error) * completion unit :=
  let url := request_url this in
  let (err, body) := oauth2_get (This._oauth2 this) url accessToken in
  let (calls, outcome) := callback_done done err body in
  (oauth2_get_call url accessToken :: calls, outcome).

End Strategy.

(** ** A runtime to evaluate on: Node *)

Module Node.

(** *** [JSON.parse]

    The grammar of ECMA-404: white space is space, tab, line feed and
    carriage return; a text is one value with white space around it. *)

Definition quote : ascii := "034"%char.
Definition backslash : ascii := "092"%char.

Definition is_ws (c : ascii) : bool :=
  match c with
  | " " | "009" | "010" | "013" => true
  | _ => false
  end%char.

Fixpoint skip_ws (s : string) : string :=
  match s with
  | String c s' => if is_ws c then skip_ws s' else s
  | EmptyString => s
  end.

Definition is_digit (c : ascii) : bool :=
  match c with
  | "0" | "1" | "2" | "3" | "4" | "5" | "6" | "7" | "8" | "9" => true
  | _ => false
  end%char.

(** The longest run of digits [s] starts with, and what follows it. *)
Fixpoint digits (s : string) : string * string :=
  match s with
  | String c s' =>
      if is_digit c then let (ds, rest) := digits s' in (String c ds, rest)
      else (EmptyString, s)
  | EmptyString => (EmptyString, s)
  end.

(** A number literal: an optional minus sign; zero, or a non-zero digit
    and digits; an optional fraction, a point and one digit or more; an
    optional exponent, [e] or [E], a sign or none, one digit or more. *)
Definition number (s : string) : option (string * string) :=
  '(sign, s) ← Some (match s with
                     | String "-"%char s' => ("-", s')
                     | _ => (EmptyString, s)
                     end);
  '(int, s) ← match s with
              | String "0"%char s' => Some ("0", s')
              | String c s' =>
                  if is_digit c then
                    let (ds, rest) := digits s' in Some (String c ds, rest)
                  else None
              | EmptyString => None
              end;
  '(frac, s) ← match s with
               | String "."%char s' =>
                   let (ds, rest) := digits s' in
                   if decide (ds = EmptyString) then None
                   else Some ("." +:+ ds, rest)
               | _ => Some (EmptyString, s)
               end;
  '(exp, s) ← match s with
              | String c s' =>
                  if decide (c = "e"%char ∨ c = "E"%char) then
                    let (sg, s'') :=
                      match s' with
                      | String "+"%char t => ("+", t)
                      | String "-"%char t => ("-", t)
                      | _ => (EmptyString, s')
                      end in
                    let (ds, rest) := digits s'' in
                    if decide (ds = EmptyString) then None
                    else Some (String c (sg +:+ ds), rest)
                  else Some (EmptyString, s)
              | EmptyString => Some (EmptyString, s)
              end;
  Some (sign +:+ int +:+ frac +:+ exp, s).

Definition hex (c : ascii) : option N :=
  let n := N_of_ascii c in
  if is_digit c then Some (n - 48)%N
  else if ((97 <=? n) && (n <=? 102))%N then Some (n - 87)%N
  else if ((65 <=? n) && (n <=? 70))%N then Some (n - 55)%N
  else None.

(** One UTF-16 code unit, as a string holds it. *)
Definition code_unit (n : N) : string :=
  if (n <? 128)%N then String (ascii_of_N n) EmptyString
  else if (n <? 2048)%N then
    String (ascii_of_N (192 + n / 64))
      (String (ascii_of_N (128 + n mod 64)) EmptyString)
  else
    String (ascii_of_N (224 + n / 4096))
      (String (ascii_of_N (128 + (n / 64) mod 64))
         (String (ascii_of_N (128 + n mod 64)) EmptyString)).

(** The characters of a string literal after its opening quote, escapes
    decoded, and what follows its closing quote. *)
Fixpoint chars (s : string) : option (string * string) :=
  match s with
  | EmptyString => None
  | String c s1 =>
      if decide (c = quote) then Some (EmptyString, s1)
      else if decide (c = backslash) then
        match s1 with
        | String e s2 =>
            if decide (e = "u"%char) then
              match s2 with
              | String h1 (String h2 (String h3 (String h4 s3))) =>
                  a ← hex h1; b ← hex h2; c ← hex h3; d ← hex h4;
                  '(cs, rest) ← chars s3;
                  Some (code_unit (((a * 16 + b) * 16 + c) * 16 + d)%N +:+ cs,
                        rest)
              | _ => None
              end
            else
              x ← (if decide (e = quote) then Some quote
                   else if decide (e = backslash) then Some backslash
                   else match e with
                        | "/" => Some "/"
                        | "b" => Some "008"
                        | "f" => Some "012"
                        | "n" => Some "010"
                        | "r" => Some "013"
                        | "t" => Some "009"
                        | _ => None
                        end%char);
              '(cs, rest) ← chars s2;
              Some (String x cs, rest)
        | EmptyString => None
        end
      else if (N_of_ascii c <? 32)%N then None
      else '(cs, rest) ← chars s1; Some (String c cs, rest)
  end.

(** [s] without its prefix [p]. *)
Fixpoint strip (p s : string) : option string :=
  match p, s with
  | EmptyString, _ => Some s
  | String a p', String b s' => if decide (a = b) then strip p' s' else None
  | String _ _, EmptyString => None
  end.

(** The elements of an array after its opening bracket, up to the closing
    one; [n] bounds their number. *)
Fixpoint elements (value : string -> option (json * string)) (n : nat)
    (s : string) : option (list json * string) :=
  match n with
  | O => None
  | S n =>
      '(v, s) ← value s;
      match skip_ws s with
      | String ","%char s =>
          '(vs, s) ← elements value n s; Some (v :: vs, s)
      | String "]"%char s => Some ([v], s)
      | _ => None
      end
  end.

(** The members of an object after its opening brace, up to the closing
    one. *)
Fixpoint members (value : string -> option (json * string)) (n : nat)
    (s : string) : option (list (string * json) * string) :=
  match n with
  | O => None
  | S n =>
      match skip_ws s with
      | String c s =>
          if decide (c = quote) then
            '(k, s) ← chars s;
            match skip_ws s with
            | String ":"%char s =>
                '(v, s) ← value s;
                match skip_ws s with
                | String ","%char s =>
                    '(ms, s) ← members value n s; Some ((k, v) :: ms, s)
                | String "}"%char s => Some ([(k, v)], s)
                | _ => None
                end
            | _ => None
            end
          else None
      | EmptyString => None
      end
  end.

(** One value with white space before it; [n] bounds the nesting. *)
Fixpoint value (n : nat) (s : string) : option (json * string) :=
  match n with
  | O => None
  | S n =>
      match skip_ws s with
      | String c s1 as s0 =>
          if decide (c = "{"%char) then
            match skip_ws s1 with
            | String "}"%char s2 => Some (JObject [], s2)
            | _ => '(ms, s2) ← members (value n) n s1; Some (JObject ms, s2)
            end
          else if decide (c = "["%char) then
            match skip_ws s1 with
            | String "]"%char s2 => Some (JArray [], s2)
            | _ => '(vs, s2) ← elements (value n) n s1; Some (JArray vs, s2)
            end
          else if decide (c = quote) then
            '(x, s2) ← chars s1; Some (JString x, s2)
          else
            match strip "true" s0, strip "false" s0, strip "null" s0 with
            | Some s2, _, _ => Some (JBool true, s2)
            | _, Some s2, _ => Some (JBool false, s2)
            | _, _, Some s2 => Some (JNull, s2)
            | _, _, _ => '(x, s2) ← number s0; Some (JNumber x, s2)
            end
      | EmptyString => None
      end
  end.

(** A text has no more values nested in one another, and no array or
    object of it more elements, than it has characters: the bound never
    cuts a parse short. *)
Definition JSON_parse (text : string) : completion json :=
  match value (S (String.length text)) text with
  | Some (v, rest) =>
      if decide (skip_ws rest = EmptyString) then Normal v
      else Throw SyntaxError
  | None => Throw SyntaxError
  end.

(** *** [url.parse] and [url.format]

    Node's legacy parser on an href of the form
    [scheme://host:port/path?query#fragment], each part after the host
    optional, with no user information and none of the characters the
    parser escapes.  The scheme and the host come out in lower case, and
    an http, https, ftp, gopher or file URL with a host and no path gets
    the path [/]. *)

(** [s] up to the first [c], and [s] from that [c] on. *)
Fixpoint split_at (c : ascii) (s : string) : string * option string :=
  match s with
  | EmptyString => (EmptyString, None)
  | String a s' =>
      if decide (a = c) then (EmptyString, Some s)
      else let (before, rest) := split_at c s' in (String a before, rest)
  end.

(** Whether [c] occurs in [s]. *)
Fixpoint has (c : ascii) (s : string) : bool :=
  match s with
  | EmptyString => false
  | String a s' => bool_decide (a = c) || has c s'
  end.

Definition to_lower (c : ascii) : ascii :=
  let n := N_of_ascii c in
  if ((65 <=? n) && (n <=? 90))%N then ascii_of_N (n + 32) else c.

Fixpoint toLowerCase (s : string) : string :=
  match s with
  | EmptyString => EmptyString
  | String c s' => String (to_lower c) (toLowerCase s')
  end.

Definition is_scheme_char (c : ascii) : bool :=
  let n := N_of_ascii (to_lower c) in
  ((97 <=? n) && (n <=? 122))%N || is_digit c
  || bool_decide (c = "."%char ∨ c = "+"%char ∨ c = "-"%char).

(** The scheme [s] starts with, colon included and in lower case, and
    what follows it. *)
Fixpoint scheme (s : string) : option (string * string) :=
  match s with
  | EmptyString => None
  | String c s' =>
      if is_scheme_char c then
        match s' with
        | String ":"%char rest => Some (String (to_lower c) ":", rest)
        | _ => '(p, rest) ← scheme s'; Some (String (to_lower c) p, rest)
        end
      else None
  end.

Definition slashedProtocol (protocol : string) : bool :=
  bool_decide (protocol ∈ ["http:"; "https:"; "ftp:"; "gopher:"; "file:"]).

(** The port [host] ends with, and the host name before its colon. *)
Fixpoint split_port (host : string) : string * option string :=
  match host with
  | EmptyString => (EmptyString, None)
  | String c host' =>
      if decide (c = ":"%char ∧ (digits host').2 = EmptyString) then
        (EmptyString,
         if decide (host' = EmptyString) then None else Some host')
      else let (name, port) := split_port host' in (String c name, port)
  end.

Definition nonempty (s : string) : option string :=
  if decide (s = EmptyString) then None else Some s.

(** [search.replace(/#/g, '%23')] *)
Fixpoint escape_hash (s : string) : string :=
  match s with
  | EmptyString => EmptyString
  | String c s' =>
      if decide (c = "#"%char) then "%23" +:+ escape_hash s'
      else String c (escape_hash s')
  end.

(** In a path both [?] and [#] are escaped. *)
Fixpoint escape_path (s : string) : string :=
  match s with
  | EmptyString => EmptyString
  | String c s' =>
      if decide (c = "#"%char) then "%23" +:+ escape_path s'
      else if decide (c = "?"%char) then "%3F" +:+ escape_path s'
      else String c (escape_path s')
  end.

Definition starts_with (c : ascii) (s : string) : bool :=
  match s with
  | String a _ => bool_decide (a = c)
  | EmptyString => false
  end.

(** [url.format] writes the protocol, the host and the path, then the
    query string, then the fragment.  User information is left out: the
    parser above finds none. *)
Definition origin_and_path (url : Url.t) : string :=
  let protocol := default EmptyString (Url.protocol url) in
  let protocol :=
    match String.rev protocol with
    | EmptyString | String ":"%char _ => protocol
    | _ => protocol +:+ ":"
    end in
  let pathname := escape_path (default EmptyString (Url.pathname url)) in
  let host : option string :=
    match Url.host url ≫= nonempty, Url.hostname url ≫= nonempty with
    | Some h, _ => Some h
    | None, Some h =>
        Some (h +:+ match Url.port url ≫= nonempty with
                    | Some p => ":" +:+ p
                    | None => EmptyString
                    end)
    | None, None => None
    end in
  let slashed :=
    Url.slashes url
    || (bool_decide (protocol = EmptyString) || slashedProtocol protocol)
       && bool_decide (is_Some host) in
  let pathname :=
    if slashed && negb (bool_decide (pathname = EmptyString))
       && negb (starts_with "/" pathname)
    then "/" +:+ pathname else pathname in
  let host :=
    if slashed then "//" +:+ default EmptyString host
    else default EmptyString host in
  protocol +:+ host +:+ pathname.

Definition search_part (search : option string) : string :=
  let search := escape_hash (default EmptyString search) in
  if negb (bool_decide (search = EmptyString)) && negb (starts_with "?" search)
  then "?" +:+ search else search.

Definition hash_part (hash : option string) : string :=
  let hash := default EmptyString hash in
  if negb (bool_decide (hash = EmptyString)) && negb (starts_with "#" hash)
  then "#" +:+ hash else hash.

Definition uri_format (url : Url.t) : string :=
  origin_and_path url
  +:+ search_part (Url.search url) +:+ hash_part (Url.hash url).

Definition set_href (url : Url.t) (href : string) : Url.t :=
  {| Url.protocol := Url.protocol url; Url.slashes := Url.slashes url;
     Url.auth := Url.auth url; Url.host := Url.host url;
     Url.port := Url.port url; Url.hostname := Url.hostname url;
     Url.hash := Url.hash url; Url.search := Url.search url;
     Url.query := Url.query url; Url.pathname := Url.pathname url;
     Url.path := Url.path url; Url.href := href |}.

Definition uri_parse (href : string) : Url.t :=
  let (rest, hash) := split_at "#" href in
  let (rest, search) := split_at "?" rest in
  let (protocol, rest) :=
    match scheme rest with
    | Some (p, rest) => (Some p, rest)
    | None => (None, rest)
    end in
  let (slashes, rest) :=
    match protocol, rest with
    | Some _, String "/"%char (String "/"%char rest') => (true, rest')
    | _, _ => (false, rest)
    end in
  let (authority, rest) :=
    if slashes then
      let (a, path) := split_at "/" rest in
      (Some (toLowerCase a), default EmptyString path)
    else (None, rest) in
  let hostname := authority ≫= fun a => nonempty (split_port a).1 in
  let port := authority ≫= fun a => (split_port a).2 in
  let host :=
    (fun _ => default EmptyString hostname
              +:+ match port with
                  | Some p => ":" +:+ p
                  | None => EmptyString
                  end) <$> authority in
  let pathname :=
    if decide (rest = EmptyString) then
      if slashedProtocol (default EmptyString protocol)
         && bool_decide (is_Some hostname)
      then Some "/" else None
    else Some rest in
  let path :=
    match pathname, search with
    | None, None => None
    | _, _ => Some (default EmptyString pathname
                    +:+ default EmptyString search)
    end in
  let url :=
    {| Url.protocol := protocol;
       Url.slashes := slashes;
       Url.auth := None;
       Url.host := host;
       Url.port := port;
       Url.hostname := hostname;
       Url.hash := hash;
       Url.search := search;
       Url.query := (fun s => match s with
                              | String _ q => q
                              | EmptyString => EmptyString
                              end) <$> search;
       Url.pathname := pathname;
       Url.path := path;
       Url.href := EmptyString |} in
  set_href url (uri_format url).

(** *** The constructor of [passport-oauth2] and its engine

    The inherited constructor throws a [TypeError] when it gets no
    [verify] callback, or when [options.authorizationURL],
    [options.tokenURL] or [options.clientID] is missing or empty; else
    it builds the engine from the client's credentials and the two
    endpoints. *)

Record OAuth2 : Type := new_OAuth2 {
  _clientId : string;
  _clientSecret : option string;
  _authorizeUrl : string;
  _accessTokenUrl : string;
}.

Definition OAuth2Strategy {Verify : Type} (options : Options.t)
    (verify : option Verify) : completion OAuth2 :=
  match verify with
  | None => Throw TypeError
  | Some _ =>
      match Options.authorizationURL options ≫= nonempty,
            Options.tokenURL options ≫= nonempty,
            Options.clientID options ≫= nonempty with
      | Some authorizationURL, Some tokenURL, Some clientID =>
          Normal (new_OAuth2 clientID (Options.clientSecret options)
                             authorizationURL tokenURL)
      | _, _, _ => Throw TypeError
      end
  end.

(** What the engine reports as [err]: the status and body of a response
    that is not a success, or the failure of the request itself. *)
Inductive oauth_error : Type :=
  | response_error (statusCode : N) (data : string)
  | request_error.

(** Node with a provider that answers a GET of [url] under
    [accessToken] with [provider url accessToken]. *)
Definition runtime
    (provider : string -> string -> option oauth_error * string) : Runtime :=
  Build_Runtime unit OAuth2 oauth_error OAuth2Strategy (fun _ => provider)
                uri_parse uri_format JSON_parse.

End Node.

(** ** Inputs the examples are stated on *)

Module Example.

(** [s] between double quotes. *)
Definition quoted (s : string) : string :=
  String Node.quote (s +:+ String Node.quote EmptyString).

(** The response body of the specification's example. *)
Definition alice : string :=
  "{" +:+ quoted "id" +:+ ":" +:+ quoted "42" +:+ ","
  +:+ quoted "username" +:+ ":" +:+ quoted "alice" +:+ ","
  +:+ quoted "full_name" +:+ ":" +:+ quoted "Alice A" +:+ ","
  +:+ quoted "first_name" +:+ ":" +:+ quoted "Alice" +:+ ","
  +:+ quoted "last_name" +:+ ":" +:+ quoted "A" +:+ "}".

(** The document it denotes. *)
Definition alice_document : json :=
  JObject [("id", JString "42");
           ("username", JString "alice");
           ("full_name", JString "Alice A");
           ("first_name", JString "Alice");
           ("last_name", JString "A")].

(** The options of the example in the constructor's documentation
    (lines 28-32), with a profile endpoint and a field list or none. *)
Definition options (profileURL : option string)
    (profileFields : option (list string)) : Options.t :=
  {| Options.clientID := Some "123-456-789";
     Options.clientSecret := Some "shhh-its-a-secret";
     Options.callbackURL :=
       Some "https://www.example.net/auth/instagram/callback";
     Options.authorizationURL := None;
     Options.tokenURL := None;
     Options.profileURL := profileURL;
     Options.profileFields := profileFields |}.

(** The engine the inherited constructor builds from them. *)
Definition engine : Node.OAuth2 :=
  {| Node._clientId := "123-456-789";
     Node._clientSecret := Some "shhh-its-a-secret";
     Node._authorizeUrl := "https://api.instagram.com/oauth/authorize/";
     Node._accessTokenUrl := "https://api.instagram.com/oauth/access_token" |}.

(** Node with a provider that answers every request with [reply]. *)
Definition answering (reply : option Node.oauth_error * string) : Runtime :=
  Node.runtime (fun _ _ => reply).

(** A [done] that returns, and one that throws when it is given a
    profile. *)
Definition returning {E : Type} (err : option (error E))
    (profile : option Profile.t) : completion unit :=
  Normal tt.

Definition throwing_on_profile {E : Type} (err : option (error E))
    (profile : option Profile.t) : completion unit :=
  match profile with
  | Some _ => Throw (OtherError "Error")
  | None => Normal tt
  end.

(** The strategy constructed from them, for a profile endpoint and a
    field list. *)
Definition this (profileURL : string) (profileFields : list string)
  : This.t Node.OAuth2 :=
  {| This._oauth2 := engine;
     This.name := "instagram";
     This._profileURL := profileURL;
     This._profileFields := profileFields |}.

End Example.

(** * Properties *)

(** ** Strings *)

Lemma append_empty_r (s : string) : s +:+ "" = s.
Proof.
  induction s as [|c s IH]; [done|].
  change (String c (s +:+ "") = String c s). by rewrite IH.
Qed.

Lemma append_assoc (s1 s2 s3 : string) :
  (s1 +:+ s2) +:+ s3 = s1 +:+ s2 +:+ s3.
Proof.
  induction s1 as [|c s1 IH]; [done|].
  change (String c ((s1 +:+ s2) +:+ s3) = String c (s1 +:+ s2 +:+ s3)).
  by rewrite IH.
Qed.

(** ** Field-list conversion *)

Section Conversion.
Import ConvertProfileFields.

Lemma push_contribution m fields f :
  push m fields f = fields ++ contribution m f.
Proof. unfold push, contribution. by destruct (get m f). Qed.

(** [forEach] pushes what the entries contribute, in the order of the
    entries; an entry mapped to a list contributes all of its names. *)
Lemma foldl_push m fields profileFields :
  foldl (push m) fields profileFields
  = fields ++ mjoin (contribution m <$> profileFields).
Proof.
  revert fields.
  induction profileFields as [|f profileFields IH]; intros fields; simpl.
  - by rewrite app_nil_r.
  - by rewrite IH, push_contribution, <- app_assoc.
Qed.

Lemma contribution_list m f names :
  m !! f = Some (array names) -> contribution m f = str <$> names.
Proof. intros Hf. unfold contribution, get. by rewrite Hf. Qed.

(** Every name of the map is mapped to itself. *)
Lemma map_identity f v : map !! f = Some v -> v = str f.
Proof.
  unfold map. intros Hf.
  repeat (apply lookup_insert_Some in Hf as [[<- <-]|[_ Hf]]; [done|]).
  by apply lookup_singleton_Some in Hf as [<- <-].
Qed.

(** An entry that is no member of [Object.prototype] contributes itself,
    mapped or not. *)
Lemma contribution_plain f :
  Object_prototype !! f = None -> contribution map f = [str f].
Proof.
  intros Hf. unfold contribution, get. rewrite Hf.
  destruct (map !! f) as [v|] eqn:Hm; [|done].
  by rewrite (map_identity _ _ Hm).
Qed.

(** X1.  On a list with no such entry the conversion joins the entries
    as they are, in their order. *)
Lemma _convertProfileFields_plain (profileFields : list string) :
  Forall (fun f => Object_prototype !! f = None) profileFields ->
  _convertProfileFields profileFields = String.concat "," profileFields.
Proof.
  intros Hplain. unfold _convertProfileFields, join. cbv zeta.
  rewrite foldl_push. simpl. f_equal.
  induction Hplain as [|f profileFields Hf _ IH]; [done|].
  cbn [fmap list_fmap mjoin list_join].
  rewrite (contribution_plain _ Hf). cbn. by f_equal.
Qed.

End Conversion.

(** C5.  A field name outside the four keys of the map is not always
    passed through: [constructor] is none of the keys, and the object
    literal inherits a member of that name, which the conversion prints
    in its place.  The specification's example [["id", "photos_count"]]
    does give ["id,photos_count"]. *)
Theorem _convertProfileFields_constructor :
  ConvertProfileFields.map !! "constructor" = None
  /\ _convertProfileFields ["constructor"]
     = "function Object() { [native code] }"
  /\ _convertProfileFields ["id"; "photos_count"] = "id,photos_count".
Proof. by vm_compute. Qed.

(** C2.  The joined sequence is not always that of the mapped or kept
    entries: [toString] and [__proto__] are no keys of the map, and
    neither is kept as it is. *)
Theorem _convertProfileFields_inherited :
  _convertProfileFields ["id"; "toString"]
  = "id,function toString() { [native code] }"
  /\ _convertProfileFields ["__proto__"; "username"]
     = "[object Object],username".
Proof. by vm_compute. Qed.

(** ** The URL module of Node *)

Lemma split_at_fst c s : Node.has c (Node.split_at c s).1 = false.
Proof.
  induction s as [|a s IH]; [done|]. cbn. case_decide as Ha; [done|].
  destruct (Node.split_at c s) as [before rest]. cbn in *.
  rewrite IH. by rewrite bool_decide_eq_false_2.
Qed.

Lemma split_at_app c s :
  s = (Node.split_at c s).1 +:+ default "" (Node.split_at c s).2.
Proof.
  induction s as [|a s IH]; [done|]. cbn. case_decide as Ha; [done|].
  destruct (Node.split_at c s) as [before rest]. cbn in *.
  change (String a s = String a (before +:+ default "" rest)).
  by rewrite <- IH.
Qed.

Lemma split_at_snd c s r :
  (Node.split_at c s).2 = Some r -> Node.starts_with c r = true.
Proof.
  induction s as [|a s IH]; [done|]. cbn. case_decide as Ha.
  - intros [= <-]. cbn. by rewrite bool_decide_eq_true_2.
  - by destruct (Node.split_at c s) as [before rest].
Qed.

Lemma has_app c s1 s2 :
  Node.has c (s1 +:+ s2) = Node.has c s1 || Node.has c s2.
Proof.
  induction s1 as [|a s1 IH]; [done|].
  change (Node.has c (String a (s1 +:+ s2))
          = Node.has c (String a s1) || Node.has c s2).
  cbn. rewrite IH. by rewrite orb_assoc.
Qed.

Lemma escape_hash_app s1 s2 :
  Node.escape_hash (s1 +:+ s2) = Node.escape_hash s1 +:+ Node.escape_hash s2.
Proof.
  induction s1 as [|a s1 IH]; [done|].
  change (Node.escape_hash (String a (s1 +:+ s2))
          = Node.escape_hash (String a s1) +:+ Node.escape_hash s2).
  cbn. rewrite IH. case_decide; [|done]. by rewrite append_assoc.
Qed.

Lemma escape_hash_without s :
  Node.has "#" s = false -> Node.escape_hash s = s.
Proof.
  induction s as [|a s IH]; [done|]. cbn.
  intros [Ha Hs]%orb_false_elim. apply bool_decide_eq_false in Ha.
  case_decide; [done|]. by rewrite IH.
Qed.

Lemma uri_parse_search href :
  Url.search (Node.uri_parse href)
  = (Node.split_at "?" (Node.split_at "#" href).1).2.
Proof.
  unfold Node.uri_parse. destruct (Node.split_at "#" href) as [rest hash].
  cbn [fst]. destruct (Node.split_at "?" rest) as [rest' search].
  repeat match goal with
         | |- context [let (_, _) := ?x in _] => destruct x
         end.
  reflexivity.
Qed.

(** The query string [url.parse] finds starts with its question mark and
    holds no [#]. *)
Lemma uri_parse_search_shape href search :
  Url.search (Node.uri_parse href) = Some search ->
  Node.starts_with "?" search = true /\ Node.has "#" search = false.
Proof.
  rewrite uri_parse_search. intros Hsearch. split.
  - by apply split_at_snd in Hsearch.
  - pose proof (split_at_fst "#" href) as Hrest.
    rewrite (split_at_app "?" (Node.split_at "#" href).1), Hsearch, has_app
      in Hrest.
    by apply orb_false_elim in Hrest as [_ Hrest].
Qed.

Lemma search_part_query search rest :
  Node.starts_with "?" search = true -> Node.has "#" search = false ->
  Node.search_part (Some (search +:+ rest))
  = search +:+ Node.escape_hash rest.
Proof.
  intros Hstart Hhas. unfold Node.search_part. cbv zeta. cbn [from_option id].
  rewrite escape_hash_app, (escape_hash_without _ Hhas).
  destruct search as [|c search]; [done|].
  change (String c search +:+ Node.escape_hash rest)
    with (String c (search +:+ Node.escape_hash rest)).
  cbn in Hstart |- *. by rewrite Hstart.
Qed.

Lemma uri_format_set_search url search :
  Node.uri_format (Url.set_search url search)
  = Node.origin_and_path url +:+ Node.search_part (Some search)
    +:+ Node.hash_part (Url.hash url).
Proof. by destruct url. Qed.

(** ** The profile request *)

Section UserProfile.
Context {R : Runtime}.
Implicit Types (this : This.t OAuth2) (accessToken body : string).

Lemma userProfile_unfold this accessToken err body :
  oauth2_get (This._oauth2 this) (request_url this) accessToken = (err, body) ->
  userProfile this accessToken
  = oauth2_get_call (request_url this) accessToken :: callback err body.
Proof. intros Hget. unfold userProfile. cbv zeta. by rewrite Hget. Qed.

(** A document other than [null] yields a profile, whatever it lacks. *)
Lemma parse_profile_document body doc :
  JSON_parse body = Normal doc ->
  doc <> JNull ->
  exists id displayName familyName givenName username,
    Get doc "id" = Normal id
    /\ Get doc "full_name" = Normal displayName
    /\ Get doc "last_name" = Normal familyName
    /\ Get doc "first_name" = Normal givenName
    /\ Get doc "username" = Normal username
    /\ parse_profile body
       = Normal {| Profile.provider := "instagram";
                   Profile.id := id;
                   Profile.displayName := displayName;
                   Profile.name := {| Profile.familyName := familyName;
                                      Profile.givenName := givenName |};
                   Profile.username := username;
                   Profile._raw := body;
                   Profile._json := doc |}.
Proof.
  intros Hparse Hdoc. unfold parse_profile. rewrite Hparse.
  destruct doc; try done; repeat eexists; reflexivity.
Qed.

Lemma parse_profile_null body :
  JSON_parse body = Normal JNull -> parse_profile body = Throw TypeError.
Proof. intros Hparse. unfold parse_profile. by rewrite Hparse. Qed.

Lemma parse_profile_throw body e :
  JSON_parse body = Throw e -> parse_profile body = Throw e.
Proof. intros Hparse. unfold parse_profile. by rewrite Hparse. Qed.

(** With a query string on the endpoint and fields to ask for, line 79
    extends the query string. *)
Lemma request_url_search this search :
  Url.search (uri_parse (This._profileURL this)) = Some search ->
  search <> "" ->
  _convertProfileFields (This._profileFields this) <> "" ->
  request_url this
  = uri_format (Url.set_search (uri_parse (This._profileURL this))
                  (search +:+ "&fields="
                   +:+ _convertProfileFields (This._profileFields this))).
Proof.
  intros Hsearch Hnonempty Hfields. unfold request_url. cbv zeta.
  rewrite Hsearch. repeat case_decide; try done. by rewrite append_assoc.
Qed.

End UserProfile.

(** A member an object does not have reads as [undefined]. *)
Lemma own_missing (members : list (string * json)) (k : string) :
  k ∉ members.*1 -> own members k = None.
Proof.
  unfold own. induction members as [|[k' v] members IH] using rev_ind; [done|].
  rewrite fmap_app, foldl_app. cbn.
  intros [Hk Hk']%not_elem_of_app. case_decide as Heq.
  - subst. exfalso. apply Hk'. by left.
  - by apply IH.
Qed.

(** On Node the URL of the request is the serialized endpoint with the
    parameter put in after its query string. *)
Lemma node_request_url provider (this : This.t Node.OAuth2) search :
  let url := Node.uri_parse (This._profileURL this) in
  let fields := _convertProfileFields (This._profileFields this) in
  Url.search url = Some search ->
  fields <> "" ->
  Node.uri_format url
  = Node.origin_and_path url +:+ search +:+ Node.hash_part (Url.hash url)
  /\ request_url (R := Node.runtime provider) this
     = Node.origin_and_path url
       +:+ (search +:+ "&fields=" +:+ Node.escape_hash fields)
       +:+ Node.hash_part (Url.hash url).
Proof.
  intros url fields Hsearch Hfields.
  destruct (uri_parse_search_shape _ _ Hsearch) as [Hstart Hhas].
  assert (search <> "") as Hnonempty by (by destruct search).
  split.
  - unfold Node.uri_format. rewrite Hsearch.
    rewrite <- (append_empty_r search) at 1.
    rewrite (search_part_query _ _ Hstart Hhas). cbn [Node.escape_hash].
    by rewrite append_empty_r.
  - rewrite (request_url_search (R := Node.runtime provider) this search
               Hsearch Hnonempty Hfields).
    change (Node.uri_format
              (Url.set_search url (search +:+ "&fields=" +:+ fields))
            = Node.origin_and_path url
              +:+ (search +:+ "&fields=" +:+ Node.escape_hash fields)
              +:+ Node.hash_part (Url.hash url)).
    rewrite uri_format_set_search.
    by rewrite (search_part_query _ _ Hstart Hhas), escape_hash_app.
Qed.

(** C1.  When the engine reports no error and the body decodes to an
    object, [userProfile] calls [done] once, with no error and the profile
    that has [provider] ["instagram"], [id], [username], [displayName],
    [name.givenName] and [name.familyName] read off the members [id],
    [username], [full_name], [first_name] and [last_name], and the body
    and the document as [_raw] and [_json]; on Node the body of the
    example gives the profile of Alice. *)
Theorem userProfile_object :
  (forall (R : Runtime) (this : This.t OAuth2) (accessToken body : string)
          (members : list (string * json)),
      oauth2_get (This._oauth2 this) (request_url this) accessToken
      = (None, body) ->
      JSON_parse body = Normal (JObject members) ->
      userProfile this accessToken
      = [oauth2_get_call (request_url this) accessToken;
         JSON_parse_call body;
         done_call None
           (Some {| Profile.provider := "instagram";
                    Profile.id := own members "id";
                    Profile.displayName := own members "full_name";
                    Profile.name :=
                      {| Profile.familyName := own members "last_name";
                         Profile.givenName := own members "first_name" |};
                    Profile.username := own members "username";
                    Profile._raw := body;
                    Profile._json := JObject members |})])
  /\ userProfile (R := Example.answering (None, Example.alice))
       (Example.this "https://graph.instagram.com/me" ["id"; "username"])
       "token"
     = [oauth2_get_call "https://graph.instagram.com/me?fields=id,username"
                        "token";
        JSON_parse_call Example.alice;
        done_call None
          (Some {| Profile.provider := "instagram";
                   Profile.id := Some (JString "42");
                   Profile.displayName := Some (JString "Alice A");
                   Profile.name :=
                     {| Profile.familyName := Some (JString "A");
                        Profile.givenName := Some (JString "Alice") |};
                   Profile.username := Some (JString "alice");
                   Profile._raw := Example.alice;
                   Profile._json := Example.alice_document |})].
Proof.
  split.
  - intros R this accessToken body members Hget Hparse.
    rewrite (userProfile_unfold _ _ _ _ Hget). unfold callback, parse_profile.
    by rewrite Hparse.
  - by vm_compute.
Qed.

Lemma userProfile_object_alice :
  Node.JSON_parse Example.alice = Normal Example.alice_document
  /\ userProfile (R := Example.answering (None, Example.alice))
       (Example.this "https://graph.instagram.com/me" ["id"; "username"])
       "token"
     = [oauth2_get_call "https://graph.instagram.com/me?fields=id,username"
                        "token";
        JSON_parse_call Example.alice;
        done_call None
          (Some {| Profile.provider := "instagram";
                   Profile.id := Some (JString "42");
                   Profile.displayName := Some (JString "Alice A");
                   Profile.name :=
                     {| Profile.familyName := Some (JString "A");
                        Profile.givenName := Some (JString "Alice") |};
                   Profile.username := Some (JString "alice");
                   Profile._raw := Example.alice;
                   Profile._json := Example.alice_document |})].
Proof.
  assert (Node.JSON_parse Example.alice = Normal Example.alice_document)
    as Hparse by (by vm_compute).
  split; [exact Hparse|].
  exact (proj1 userProfile_object
           (Example.answering (None, Example.alice))
           (Example.this "https://graph.instagram.com/me" ["id"; "username"])
           "token" Example.alice _ eq_refl Hparse).
Defined.

(** C3.  When the engine reports an error, [userProfile] calls [done]
    once, with an [InternalOAuthError] whose message is "failed to fetch
    user profile" and whose cause is the engine's error, and with no
    profile; the body is not given to [JSON.parse]. *)
Theorem userProfile_fetch_failed (R : Runtime) (this : This.t OAuth2)
    (accessToken body : string) (err : oauth_error) :
  oauth2_get (This._oauth2 this) (request_url this) accessToken
  = (Some err, body) ->
  userProfile this accessToken
  = [oauth2_get_call (request_url this) accessToken;
     done_call (Some (InternalOAuthError "failed to fetch user profile" err))
               None].
Proof. intros Hget. by rewrite (userProfile_unfold _ _ _ _ Hget). Qed.

Lemma userProfile_fetch_failed_unauthorized :
  let err := Node.response_error 401 "Unauthorized" in
  userProfile (R := Example.answering (Some err, Example.alice))
    (Example.this "https://graph.instagram.com/me" ["id"; "username"])
    "token"
  = [oauth2_get_call "https://graph.instagram.com/me?fields=id,username"
                     "token";
     done_call (Some (InternalOAuthError "failed to fetch user profile" err))
               None].
Proof.
  exact (userProfile_fetch_failed
           (Example.answering (Some (Node.response_error 401 "Unauthorized"),
                               Example.alice))
           (Example.this "https://graph.instagram.com/me" ["id"; "username"])
           "token" Example.alice _ eq_refl).
Defined.

(** C4.  When the engine reports no error and [JSON.parse] throws on the
    body, [userProfile] calls [done] once, with the exception thrown and no
    profile; that error is no [InternalOAuthError].  On Node the text
    "not json" is such a body. *)
Theorem userProfile_decode_failed :
  (forall (R : Runtime) (this : This.t OAuth2) (accessToken body : string)
          (e : exn),
      oauth2_get (This._oauth2 this) (request_url this) accessToken
      = (None, body) ->
      JSON_parse body = Throw e ->
      userProfile this accessToken
      = [oauth2_get_call (request_url this) accessToken;
         JSON_parse_call body;
         done_call (Some (Caught e)) None]
      /\ forall message cause,
           @Caught oauth_error e <> InternalOAuthError message cause)
  /\ Node.JSON_parse "not json" = Throw SyntaxError.
Proof.
  split; [|by vm_compute].
  intros R this accessToken body e Hget Hparse. split; [|done].
  rewrite (userProfile_unfold _ _ _ _ Hget). unfold callback.
  by rewrite (parse_profile_throw _ _ Hparse).
Qed.

Lemma userProfile_decode_failed_not_json :
  Node.JSON_parse "not json" = Throw SyntaxError
  /\ userProfile (R := Example.answering (None, "not json"))
       (Example.this "https://graph.instagram.com/me" ["id"; "username"])
       "token"
     = [oauth2_get_call "https://graph.instagram.com/me?fields=id,username"
                        "token";
        JSON_parse_call "not json";
        done_call (Some (Caught SyntaxError)) None].
Proof.
  split; [exact (proj2 userProfile_decode_failed)|].
  exact (proj1 (proj1 userProfile_decode_failed
                  (Example.answering (None, "not json"))
                  (Example.this "https://graph.instagram.com/me"
                                ["id"; "username"])
                  "token" "not json" SyntaxError eq_refl
                  (proj2 userProfile_decode_failed))).
Defined.

(** C8, as stated, fails in two ways.  A body that decodes to [null] is
    valid JSON, the engine reports no error and [JSON.parse] returns, yet
    [done] gets an error, the [TypeError] of reading [id] off [null].  And
    a [done] that throws on being given the profile is called a second
    time, with what it threw. *)
Lemma userProfile_other_errors :
  Node.JSON_parse "null" = Normal JNull
  /\ userProfile_done (R := Example.answering (None, "null"))
       Example.returning
       (Example.this "https://graph.instagram.com/me" ["id"; "username"])
       "token"
     = ([oauth2_get_call "https://graph.instagram.com/me?fields=id,username"
                         "token";
         JSON_parse_call "null";
         done_call (Some (Caught TypeError)) None],
        Normal tt)
  /\ userProfile_done (R := Example.answering (None, "{}"))
       Example.throwing_on_profile
       (Example.this "https://graph.instagram.com/me" ["id"; "username"])
       "token"
     = ([oauth2_get_call "https://graph.instagram.com/me?fields=id,username"
                         "token";
         JSON_parse_call "{}";
         done_call None
           (Some {| Profile.provider := "instagram";
                    Profile.id := None;
                    Profile.displayName := None;
                    Profile.name := {| Profile.familyName := None;
                                       Profile.givenName := None |};
                    Profile.username := None;
                    Profile._raw := "{}";
                    Profile._json := JObject [] |});
         done_call (Some (Caught (OtherError "Error"))) None],
        Normal tt).
Proof. by vm_compute. Qed.

Section UserProfileDone.
Context {R : Runtime}.
Implicit Types (this : This.t OAuth2) (accessToken body : string).
Implicit Types
  (done : option (error oauth_error) -> option Profile.t -> completion unit).

Lemma userProfile_done_unfold done this accessToken err body :
  oauth2_get (This._oauth2 this) (request_url this) accessToken = (err, body) ->
  (userProfile_done done this accessToken).1
  = oauth2_get_call (request_url this) accessToken
    :: (callback_done done err body).1.
Proof.
  intros Hget. unfold userProfile_done. cbv zeta. rewrite Hget.
  by destruct (callback_done done err body).
Qed.

(** The calls of [done] when nothing is thrown before line 99: the one
    with the profile, and one more if that one throws. *)
Lemma callback_done_profile done body profile :
  parse_profile body = Normal profile ->
  (callback_done done None body).1
  = [JSON_parse_call body; done_call None (Some profile)]
    ++ match done None (Some profile) with
       | Normal _ => []
       | Throw e => [done_call (Some (Caught e)) None]
       end.
Proof.
  intros Hprofile. unfold callback_done, try_block. rewrite Hprofile.
  by destruct (done None (Some profile)).
Qed.

Lemma callback_done_throw done body e :
  parse_profile body = Throw e ->
  (callback_done done None body).1
  = [JSON_parse_call body; done_call (Some (Caught e)) None].
Proof.
  intros Hprofile. unfold callback_done, try_block. by rewrite Hprofile.
Qed.

(** With a [done] that returns, the calls are those of [userProfile]. *)
Lemma userProfile_done_returns done this accessToken :
  (forall err profile, done err profile = Normal tt) ->
  userProfile_done done this accessToken
  = (userProfile this accessToken, Normal tt).
Proof.
  intros Hdone. unfold userProfile_done, userProfile. cbv zeta.
  destruct oauth2_get as [[err|] body];
    unfold callback_done, callback, try_block.
  - by rewrite Hdone.
  - destruct (parse_profile body) as [profile|e]; by rewrite Hdone.
Qed.

End UserProfileDone.

(** C8, amended.  Whatever the body, the engine's answer and [done] are,
    the errors [userProfile] hands to [done] are these and no others: the
    [InternalOAuthError] that wraps the engine's error; the exception
    [JSON.parse] threw; a [TypeError] when the body decodes to [null];
    and, when [done] throws on being given the profile, what it threw, in
    a second call.  For every document other than [null], [done] is given
    no error and the profile read off the document; one of the five
    members read that an object lacks reads as [undefined]. *)
Theorem userProfile_outcomes (R : Runtime)
    (done : option (error oauth_error) -> option Profile.t -> completion unit)
    (this : This.t OAuth2) (accessToken : string) :
  let url := request_url this in
  let reply := oauth2_get (This._oauth2 this) url accessToken in
  let calls := (userProfile_done done this accessToken).1 in
  ((exists err,
       reply.1 = Some err
       /\ calls
          = [oauth2_get_call url accessToken;
             done_call
               (Some (InternalOAuthError "failed to fetch user profile" err))
               None])
   \/ (exists e,
         reply.1 = None /\ JSON_parse reply.2 = Throw e
         /\ calls
            = [oauth2_get_call url accessToken; JSON_parse_call reply.2;
               done_call (Some (Caught e)) None])
   \/ (reply.1 = None /\ JSON_parse reply.2 = Normal JNull
       /\ calls
          = [oauth2_get_call url accessToken; JSON_parse_call reply.2;
             done_call (Some (Caught TypeError)) None])
   \/ (exists doc id displayName familyName givenName username,
         let profile :=
           {| Profile.provider := "instagram";
              Profile.id := id;
              Profile.displayName := displayName;
              Profile.name := {| Profile.familyName := familyName;
                                 Profile.givenName := givenName |};
              Profile.username := username;
              Profile._raw := reply.2;
              Profile._json := doc |} in
         reply.1 = None /\ JSON_parse reply.2 = Normal doc /\ doc <> JNull
         /\ Get doc "id" = Normal id
         /\ Get doc "full_name" = Normal displayName
         /\ Get doc "last_name" = Normal familyName
         /\ Get doc "first_name" = Normal givenName
         /\ Get doc "username" = Normal username
         /\ calls
            = [oauth2_get_call url accessToken; JSON_parse_call reply.2;
               done_call None (Some profile)]
              ++ match done None (Some profile) with
                 | Normal _ => []
                 | Throw e => [done_call (Some (Caught e)) None]
                 end))
  /\ forall members k,
       k ∈ ["id"; "full_name"; "last_name"; "first_name"; "username"] ->
       k ∉ members.*1 -> Get (JObject members) k = Normal None.
Proof.
  intros url reply calls.
  split; [|intros members k _ Hk; cbn; by rewrite own_missing].
  subst calls.
  rewrite (userProfile_done_unfold done this accessToken reply.1 reply.2)
    by (subst reply url; by destruct oauth2_get).
  fold url. destruct reply as [[err|] body]; cbn [fst snd].
  { left. by exists err. }
  right. destruct (JSON_parse body) as [doc|e] eqn:Hparse.
  - assert (doc = JNull \/ doc <> JNull) as [->|Hdoc]
      by (destruct doc; (by left) || (by right)).
    + right. left.
      by rewrite (callback_done_throw _ _ _ (parse_profile_null _ Hparse)).
    + right. right.
      destruct (parse_profile_document _ _ Hparse Hdoc)
        as (id & displayName & familyName & givenName & username
            & Hid & Hname & Hfamily & Hgiven & Huser & Hprofile).
      exists doc, id, displayName, familyName, givenName, username.
      cbv zeta. by rewrite (callback_done_profile _ _ _ Hprofile).
  - left. exists e.
    by rewrite (callback_done_throw _ _ _ (parse_profile_throw _ _ Hparse)).
Qed.

(** ** The URL of the request *)

(** C6.  When the parsed endpoint has a query string and the converted
    field list is not empty, the URL of the request is the serialization
    of the parsed endpoint with one property changed: its [search] is the
    existing one, then [&], then [fields=] and the field list.  On Node
    that is the serialized endpoint itself with [&fields=] and the field
    list, a [#] in it escaped, put in after the existing query string. *)
Theorem request_url_existing_query :
  (forall (R : Runtime) (this : This.t OAuth2) (search fields : string),
      Url.search (uri_parse (This._profileURL this)) = Some search ->
      search <> "" ->
      _convertProfileFields (This._profileFields this) = fields ->
      fields <> "" ->
      request_url this
      = uri_format (Url.set_search (uri_parse (This._profileURL this))
                                   (search +:+ "&fields=" +:+ fields)))
  /\ (forall provider (this : This.t Node.OAuth2) (search fields : string),
        Url.search (Node.uri_parse (This._profileURL this)) = Some search ->
        _convertProfileFields (This._profileFields this) = fields ->
        fields <> "" ->
        exists before after,
          Node.uri_format (Node.uri_parse (This._profileURL this))
          = before +:+ search +:+ after
          /\ request_url (R := Node.runtime provider) this
             = before
               +:+ (search +:+ "&fields=" +:+ Node.escape_hash fields)
               +:+ after).
Proof.
  split.
  - intros R this search fields Hsearch Hnonempty <- Hfields.
    by apply request_url_search.
  - intros provider this search fields Hsearch <- Hfields.
    eexists _, _. by apply node_request_url.
Qed.

Lemma request_url_existing_query_node :
  let this :=
    Example.this "https://graph.instagram.com/me?locale=en&v=2#top"
                 ["id"; "media_count"] in
  Url.search (Node.uri_parse (This._profileURL this)) = Some "?locale=en&v=2"
  /\ _convertProfileFields (This._profileFields this) = "id,media_count"
  /\ request_url (R := Example.answering (None, Example.alice)) this
     = "https://graph.instagram.com/me?locale=en&v=2&fields=id,media_count#top".
Proof.
  split; [by vm_compute|]. split; [by vm_compute|].
  rewrite (proj1 request_url_existing_query
             (Example.answering (None, Example.alice))
             (Example.this "https://graph.instagram.com/me?locale=en&v=2#top"
                           ["id"; "media_count"])
             "?locale=en&v=2" "id,media_count");
    by vm_compute.
Defined.

(** C9, as stated, fails: with no field to ask for the URL of the request
    is the endpoint as [url.parse] and [url.format] write it again, and
    Node writes [https://graph.instagram.com] with a path. *)
Lemma request_url_endpoint_rewritten :
  let this := Example.this "https://graph.instagram.com" [] in
  _convertProfileFields (This._profileFields this) = ""
  /\ request_url (R := Example.answering (None, Example.alice)) this
     = "https://graph.instagram.com/"
  /\ request_url (R := Example.answering (None, Example.alice)) this
     <> This._profileURL this.
Proof. by vm_compute. Qed.

(** C9, amended.  When the field list converts to the empty string, as
    the empty list does, no [fields=] parameter is added: the parsed
    endpoint is handed to [url.format] as [url.parse] returned it, and the
    URL of the request is what [url.format] makes of it. *)
Theorem request_url_no_fields (R : Runtime) (this : This.t OAuth2) :
  _convertProfileFields (This._profileFields this) = "" ->
  _convertProfileFields [] = ""
  /\ request_url this = uri_format (uri_parse (This._profileURL this)).
Proof.
  intros Hfields. split; [done|].
  unfold request_url. cbv zeta. rewrite Hfields. by case_decide.
Qed.

Lemma request_url_no_fields_node :
  let this := Example.this "https://graph.instagram.com/me" [] in
  _convertProfileFields (This._profileFields this) = ""
  /\ request_url (R := Example.answering (None, Example.alice)) this
     = Node.uri_format (Node.uri_parse "https://graph.instagram.com/me")
  /\ Node.uri_format (Node.uri_parse "https://graph.instagram.com/me")
     = "https://graph.instagram.com/me".
Proof.
  split; [reflexivity|]. split; [|by vm_compute].
  exact (proj2 (request_url_no_fields
                  (Example.answering (None, Example.alice))
                  (Example.this "https://graph.instagram.com/me" [])
                  eq_refl)).
Defined.

(** ** Construction *)

Section Construction.
Context {R : Runtime}.

(** The constructor fails exactly when the inherited one does, and
    otherwise fills [this] from the options. *)
Lemma Strategy_unfold (options : option Options.t) (verify : option Verify) :
  Strategy options verify
  = match OAuth2Strategy (defaulted options) verify with
    | Normal engine =>
        Normal
          {| This._oauth2 := engine;
             This.name := "instagram";
             This._profileURL :=
               or_string (Options.profileURL (default Options.empty options))
                         "https://graph.instagram.com/me";
             This._profileFields :=
               or_array
                 (Options.profileFields (default Options.empty options))
                 ["id"; "username"] |}
    | Throw e => Throw e
    end.
Proof. unfold Strategy. cbv zeta. by destruct OAuth2Strategy. Qed.

End Construction.

(** C7, as stated, fails on options that supply an empty [profileFields],
    or one that holds an empty string: the constructor accepts them and
    keeps the list as it is. *)
Lemma Strategy_empty_profileFields :
  Strategy (R := Example.answering (None, Example.alice))
    (Some (Example.options None (Some []))) (Some tt)
  = Normal (Example.this "https://graph.instagram.com/me" [])
  /\ Strategy (R := Example.answering (None, Example.alice))
       (Some (Example.options None (Some [""]))) (Some tt)
     = Normal (Example.this "https://graph.instagram.com/me" [""]).
Proof. by vm_compute. Qed.

(** C7, amended.  A strategy that was constructed holds the
    [profileFields] of the options as they were given, or [["id",
    "username"]] when the options give none; in that second case the list
    is not empty and none of its elements is the empty string. *)
Theorem Strategy_profileFields (R : Runtime) (options : option Options.t)
    (verify : option Verify) (this : This.t OAuth2) :
  Strategy options verify = Normal this ->
  (forall profileFields,
      Options.profileFields (default Options.empty options)
      = Some profileFields ->
      This._profileFields this = profileFields)
  /\ (Options.profileFields (default Options.empty options) = None ->
      This._profileFields this = ["id"; "username"]
      /\ This._profileFields this <> []
      /\ Forall (fun f => f <> "") (This._profileFields this)).
Proof.
  rewrite Strategy_unfold. destruct OAuth2Strategy as [engine|e]; [|done].
  intros [= <-]. cbn. split.
  - by intros profileFields ->.
  - intros ->. cbn. repeat split; [done|]. by repeat constructor.
Qed.

Lemma Strategy_profileFields_default :
  Strategy (R := Example.answering (None, Example.alice))
    (Some (Example.options None None)) (Some tt)
  = Normal (Example.this "https://graph.instagram.com/me" ["id"; "username"])
  /\ This._profileFields
       (Example.this "https://graph.instagram.com/me" ["id"; "username"])
     = ["id"; "username"]
  /\ Forall (fun f => f <> "") ["id"; "username"].
Proof.
  assert (Strategy (R := Example.answering (None, Example.alice))
            (Some (Example.options None None)) (Some tt)
          = Normal (Example.this "https://graph.instagram.com/me"
                                 ["id"; "username"])) as Hnew
    by (by vm_compute).
  split; [exact Hnew|].
  pose proof (proj2 (Strategy_profileFields
                       (Example.answering (None, Example.alice))
                       (Some (Example.options None None)) (Some tt) _ Hnew)
                    eq_refl) as (Hfields & _ & Hall).
  split; [exact Hfields|exact Hall].
Defined.

(** C10, as stated, fails on Node: with an empty configuration, or none,
    the inherited constructor finds no [clientID] and throws, with a
    [verify] callback or without one, and nothing is constructed. *)
Lemma Strategy_no_options_throws :
  Strategy (R := Example.answering (None, Example.alice))
    (Some Options.empty) (Some tt) = Throw TypeError
  /\ Strategy (R := Example.answering (None, Example.alice))
       None (Some tt) = Throw TypeError
  /\ Strategy (R := Example.answering (None, Example.alice))
       (Some Options.empty) None = Throw TypeError.
Proof. by vm_compute. Qed.

(** C10, amended.  With options that give none of [authorizationURL],
    [tokenURL], [profileURL] and [profileFields] (an empty configuration
    or none among them), the constructor hands the inherited one the
    options with the provider's authorization and token endpoints added;
    it fails if and as that constructor does, and otherwise the strategy
    is named ["instagram"], its profile endpoint is
    [https://graph.instagram.com/me] and its field list is
    [["id", "username"]]. *)
Theorem Strategy_defaults (R : Runtime) (options : option Options.t)
    (verify : option Verify) :
  let given := default Options.empty options in
  Options.authorizationURL given = None ->
  Options.tokenURL given = None ->
  Options.profileURL given = None ->
  Options.profileFields given = None ->
  Strategy options verify
  = match OAuth2Strategy
            {| Options.clientID := Options.clientID given;
               Options.clientSecret := Options.clientSecret given;
               Options.callbackURL := Options.callbackURL given;
               Options.authorizationURL :=
                 Some "https://api.instagram.com/oauth/authorize/";
               Options.tokenURL :=
                 Some "https://api.instagram.com/oauth/access_token";
               Options.profileURL := None;
               Options.profileFields := None |}
            verify with
    | Normal engine =>
        Normal {| This._oauth2 := engine;
                  This.name := "instagram";
                  This._profileURL := "https://graph.instagram.com/me";
                  This._profileFields := ["id"; "username"] |}
    | Throw e => Throw e
    end.
Proof.
  intros given Hauthorization Htoken Hprofile Hfields.
  rewrite Strategy_unfold. unfold defaulted. fold given.
  by rewrite Hauthorization, Htoken, Hprofile, Hfields.
Qed.

Lemma Strategy_defaults_documented :
  Strategy (R := Example.answering (None, Example.alice))
    (Some (Example.options None None)) (Some tt)
  = Normal {| This._oauth2 := Example.engine;
              This.name := "instagram";
              This._profileURL := "https://graph.instagram.com/me";
              This._profileFields := ["id"; "username"] |}.
Proof.
  exact (Strategy_defaults (Example.answering (None, Example.alice))
           (Some (Example.options None None)) (Some tt)
           eq_refl eq_refl eq_refl eq_refl).
Defined.

(** * Further properties *)

(** ** More on the field-list conversion *)

Lemma concat_app (sep : string) (l1 l2 : list string) :
  l1 <> [] -> l2 <> [] ->
  String.concat sep (l1 ++ l2)
  = String.concat sep l1 +:+ sep +:+ String.concat sep l2.
Proof.
  intros Hl1 Hl2. induction l1 as [|x l1 IH]; [done|].
  destruct l1 as [|y l1].
  - destruct l2 as [|z l2]; [done|]. reflexivity.
  - change (x +:+ sep +:+ String.concat sep ((y :: l1) ++ l2)
            = (x +:+ sep +:+ String.concat sep (y :: l1))
              +:+ sep +:+ String.concat sep l2).
    rewrite IH by done. by rewrite !append_assoc.
Qed.

Lemma append_eq_empty (s1 s2 : string) : s1 +:+ s2 = "" -> s1 = "" /\ s2 = "".
Proof. by destruct s1. Qed.

(** A joined list is empty only if it has no element, or one that is
    empty. *)
Lemma concat_eq_empty (sep : string) (l : list string) :
  sep <> "" -> String.concat sep l = "" -> l = [] \/ l = [""].
Proof.
  intros Hsep. destruct l as [|x [|y l]]; [by left|by right; f_equal|].
  intros [_ [Hempty _]%append_eq_empty]%append_eq_empty. done.
Qed.

(** The members of [Object.prototype] print as text that is not empty,
    and none of them has the empty name or a name of the map. *)
Lemma Object_prototype_member f v :
  Object_prototype !! f = Some v ->
  ToString v <> "" /\ f <> "" /\ ConvertProfileFields.map !! f = None
  /\ ConvertProfileFields.contribution ConvertProfileFields.map f = [v].
Proof.
  unfold Object_prototype. intros Hf.
  repeat (apply lookup_insert_Some in Hf as [[<- <-]|[_ Hf]];
          [by vm_compute|]).
  apply lookup_singleton_Some in Hf as [<- <-]. by vm_compute.
Qed.

(** What one entry becomes in the joined string. *)
Lemma ToString_contribution f :
  ToString <$> ConvertProfileFields.contribution ConvertProfileFields.map f
  = [match Object_prototype !! f with
     | Some v => ToString v
     | None => f
     end].
Proof.
  destruct (Object_prototype !! f) as [v|] eqn:Hf.
  - by destruct (Object_prototype_member _ _ Hf) as (_ & _ & _ & ->).
  - by rewrite (contribution_plain _ Hf).
Qed.

Lemma fields_characterized (profileFields : list string) :
  ToString
    <$> foldl (ConvertProfileFields.push ConvertProfileFields.map) []
              profileFields
  = (fun f => match Object_prototype !! f with
              | Some v => ToString v
              | None => f
              end) <$> profileFields.
Proof.
  rewrite foldl_push. cbn [app].
  induction profileFields as [|f profileFields IH]; [done|].
  cbn [fmap list_fmap mjoin list_join]. rewrite fmap_app.
  rewrite ToString_contribution. cbn [app]. f_equal. exact IH.
Qed.

(** X2.  For every list, the conversion joins with commas, in the order
    of the entries, one text for each entry: the entry itself, unless it
    names a member of [Object.prototype], whose text then stands in its
    place. *)
Theorem _convertProfileFields_characterized (profileFields : list string) :
  _convertProfileFields profileFields
  = String.concat ","
      ((fun f => match Object_prototype !! f with
                 | Some v => ToString v
                 | None => f
                 end) <$> profileFields).
Proof.
  unfold _convertProfileFields, join. cbv zeta. by rewrite fields_characterized.
Qed.

(** X3.  The conversion gives the empty string for exactly two lists: the
    empty one, and the one whose only entry is the empty string. *)
Theorem _convertProfileFields_empty (profileFields : list string) :
  _convertProfileFields profileFields = ""
  <-> profileFields = [] \/ profileFields = [""].
Proof.
  split; [|by intros [->| ->]].
  unfold _convertProfileFields, join. cbv zeta. rewrite fields_characterized.
  intros Hempty. apply concat_eq_empty in Hempty as [Hnil|Hone]; [| |done].
  - left. by apply fmap_nil_inv in Hnil.
  - right. destruct profileFields as [|f [|g l]]; [done| |done].
    injection Hone as Hf. f_equal.
    destruct (Object_prototype !! f) as [v|] eqn:Hv; [|done].
    by destruct (Object_prototype_member _ _ Hv) as [Hne _].
Qed.

(** X4.  Converting two lists one after the other and joining the results
    with a comma is converting their concatenation, when neither list is
    empty. *)
Theorem _convertProfileFields_app (l1 l2 : list string) :
  l1 <> [] -> l2 <> [] ->
  _convertProfileFields (l1 ++ l2)
  = _convertProfileFields l1 +:+ "," +:+ _convertProfileFields l2.
Proof.
  intros Hl1 Hl2. unfold _convertProfileFields, join. cbv zeta.
  rewrite !fields_characterized, fmap_app.
  apply concat_app; by intros ?%fmap_nil_inv.
Qed.

Lemma _convertProfileFields_app_example :
  _convertProfileFields (["id"; "username"] ++ ["media_count"])
  = "id,username" +:+ "," +:+ "media_count".
Proof.
  rewrite (_convertProfileFields_app ["id"; "username"] ["media_count"]);
    by vm_compute.
Defined.

Lemma _convertProfileFields_plain_example :
  Forall (fun f => Object_prototype !! f = None)
         ["id"; "photos_count"; "account_type"]
  /\ _convertProfileFields ["id"; "photos_count"; "account_type"]
     = "id,photos_count,account_type".
Proof.
  assert (Forall (fun f => Object_prototype !! f = None)
                 ["id"; "photos_count"; "account_type"]) as Hplain
    by (repeat constructor; by vm_compute).
  split; [exact Hplain|].
  exact (_convertProfileFields_plain _ Hplain).
Defined.

(** ** More on the profile request *)

(** X6.  Whatever the engine answers, [userProfile] issues one GET, of
    the URL of the request under the access token it was given, hands the
    body to [JSON.parse] exactly when the engine reported no error, and
    then calls [done] once, with either an error or a profile and never
    both or neither. *)
Theorem userProfile_trace (R : Runtime) (this : This.t OAuth2)
    (accessToken : string) :
  let url := request_url this in
  let reply := oauth2_get (This._oauth2 this) url accessToken in
  exists err profile,
    userProfile this accessToken
    = oauth2_get_call url accessToken
      :: match reply.1 with
         | Some _ => []
         | None => [JSON_parse_call reply.2]
         end
      ++ [done_call err profile]
    /\ (err = None <-> is_Some profile)
    /\ (profile = None <-> is_Some err).
Proof.
  intros url reply.
  rewrite (userProfile_unfold this accessToken reply.1 reply.2)
    by (subst reply url; by destruct oauth2_get).
  fold url. destruct reply as [[err|] body]; cbn [fst snd callback];
    [|destruct (parse_profile body) as [profile|e]];
    (eexists _, _; split; [reflexivity|];
     split; split; first [done | by intros [? ?] | by eexists]).
Qed.

(** X7.  A body that decodes to a boolean, a number, a string or an array
    is taken for a profile all the same: [done] gets no error and a
    profile whose [id], [username], [displayName] and name parts are all
    [undefined], with the body and the document kept. *)
Theorem userProfile_not_an_object (R : Runtime) (this : This.t OAuth2)
    (accessToken body : string) (doc : json) :
  oauth2_get (This._oauth2 this) (request_url this) accessToken
  = (None, body) ->
  JSON_parse body = Normal doc ->
  doc <> JNull ->
  (forall members, doc <> JObject members) ->
  userProfile this accessToken
  = [oauth2_get_call (request_url this) accessToken;
     JSON_parse_call body;
     done_call None
       (Some {| Profile.provider := "instagram";
                Profile.id := None;
                Profile.displayName := None;
                Profile.name := {| Profile.familyName := None;
                                   Profile.givenName := None |};
                Profile.username := None;
                Profile._raw := body;
                Profile._json := doc |})].
Proof.
  intros Hget Hparse Hnull Hobject.
  rewrite (userProfile_unfold _ _ _ _ Hget). unfold callback, parse_profile.
  rewrite Hparse. destruct doc; try done. by destruct (Hobject members).
Qed.

Lemma userProfile_not_an_object_array :
  Node.JSON_parse "[]" = Normal (JArray [])
  /\ userProfile (R := Example.answering (None, "[]"))
       (Example.this "https://graph.instagram.com/me" ["id"; "username"])
       "token"
     = [oauth2_get_call "https://graph.instagram.com/me?fields=id,username"
                        "token";
        JSON_parse_call "[]";
        done_call None
          (Some {| Profile.provider := "instagram";
                   Profile.id := None;
                   Profile.displayName := None;
                   Profile.name := {| Profile.familyName := None;
                                      Profile.givenName := None |};
                   Profile.username := None;
                   Profile._raw := "[]";
                   Profile._json := JArray [] |})].
Proof.
  assert (Node.JSON_parse "[]" = Normal (JArray [])) as Hparse
    by (by vm_compute).
  split; [exact Hparse|].
  refine (userProfile_not_an_object
            (Example.answering (None, "[]"))
            (Example.this "https://graph.instagram.com/me" ["id"; "username"])
            "token" "[]" (JArray []) eq_refl Hparse _ _); done.
Defined.

(** ** More on the URL of the request *)


















(** ** More on construction *)

Lemma or_string_nonempty (x : option string) (d : string) :
  d <> "" -> or_string x d <> "".
Proof. intros Hd. unfold or_string. destruct x; [by case_decide|done]. Qed.

Lemma or_string_idempotent (x : option string) (d : string) :
  d <> "" -> or_string (Some (or_string x d)) d = or_string x d.
Proof.
  intros Hd. unfold or_string at 1. case_decide as Hempty; [|done].
  by apply or_string_nonempty in Hempty.
Qed.

(** X8.  A strategy that was constructed is named ["instagram"] and its
    profile endpoint is never the empty string: it is the [profileURL] of
    the options when that is given and not empty, and
    [https://graph.instagram.com/me] when it is missing or empty. *)
Theorem Strategy_profileURL (R : Runtime) (options : option Options.t)
    (verify : option Verify) (this : This.t OAuth2) :
  Strategy options verify = Normal this ->
  let given := Options.profileURL (default Options.empty options) in
  This.name this = "instagram"
  /\ This._profileURL this <> ""
  /\ (forall profileURL,
        given = Some profileURL -> profileURL <> "" ->
        This._profileURL this = profileURL)
  /\ (given = None \/ given = Some "" ->
      This._profileURL this = "https://graph.instagram.com/me").
Proof.
  rewrite Strategy_unfold. destruct OAuth2Strategy as [engine|e]; [|done].
  intros [= <-] given. cbn. fold given. split; [done|]. split.
  { by apply or_string_nonempty. }
  split.
  - intros profileURL -> Hnonempty. cbn. by case_decide.
  - by intros [-> | ->].
Qed.

Lemma Strategy_profileURL_given :
  Strategy (R := Example.answering (None, Example.alice))
    (Some (Example.options (Some "https://graph.instagram.com/v1/me") None))
    (Some tt)
  = Normal (Example.this "https://graph.instagram.com/v1/me"
                         ["id"; "username"])
  /\ This._profileURL
       (Example.this "https://graph.instagram.com/v1/me" ["id"; "username"])
     <> "".
Proof.
  assert (Strategy (R := Example.answering (None, Example.alice))
            (Some (Example.options (Some "https://graph.instagram.com/v1/me")
                                   None))
            (Some tt)
          = Normal (Example.this "https://graph.instagram.com/v1/me"
                                 ["id"; "username"])) as Hnew
    by (by vm_compute).
  split; [exact Hnew|].
  exact (proj1 (proj2 (Strategy_profileURL
                         (Example.answering (None, Example.alice))
                         _ _ _ Hnew))).
Defined.

(** X9.  The options the inherited constructor receives always carry an
    authorization and a token endpoint that are not empty: the ones given,
    when given and not empty, else the provider's; every other option
    reaches it as it was given. *)
Theorem Strategy_inherited_options (R : Runtime)
    (options : option Options.t) (verify : option Verify) :
  let given := default Options.empty options in
  exists authorizationURL tokenURL,
    authorizationURL <> "" /\ tokenURL <> ""
    /\ (forall url,
          Options.authorizationURL given = Some url -> url <> "" ->
          authorizationURL = url)
    /\ (Options.authorizationURL given = None
        \/ Options.authorizationURL given = Some "" ->
        authorizationURL = "https://api.instagram.com/oauth/authorize/")
    /\ (forall url,
          Options.tokenURL given = Some url -> url <> "" -> tokenURL = url)
    /\ (Options.tokenURL given = None \/ Options.tokenURL given = Some "" ->
        tokenURL = "https://api.instagram.com/oauth/access_token")
    /\ Strategy options verify
       = (engine ← OAuth2Strategy
                     {| Options.clientID := Options.clientID given;
                        Options.clientSecret := Options.clientSecret given;
                        Options.callbackURL := Options.callbackURL given;
                        Options.authorizationURL := Some authorizationURL;
                        Options.tokenURL := Some tokenURL;
                        Options.profileURL := Options.profileURL given;
                        Options.profileFields := Options.profileFields given |}
                     verify;
          mret {| This._oauth2 := engine;
                  This.name := "instagram";
                  This._profileURL :=
                    or_string (Options.profileURL given)
                              "https://graph.instagram.com/me";
                  This._profileFields :=
                    or_array (Options.profileFields given)
                             ["id"; "username"] |}).
Proof.
  intros given.
  exists (or_string (Options.authorizationURL given)
                    "https://api.instagram.com/oauth/authorize/"),
         (or_string (Options.tokenURL given)
                    "https://api.instagram.com/oauth/access_token").
  split; [by apply or_string_nonempty|].
  split; [by apply or_string_nonempty|].
  split; [intros url Hurl Hnonempty; rewrite Hurl; cbn; by case_decide|].
  split; [by intros [-> | ->]|].
  split; [intros url Hurl Hnonempty; rewrite Hurl; cbn; by case_decide|].
  split; [by intros [-> | ->]|].
  reflexivity.
Qed.

(** X10.  The constructor writes the two endpoints into the options
    object it was given; constructing again from that object hands the
    inherited constructor the same options and yields the same
    strategy. *)
Theorem Strategy_again (R : Runtime) (options : option Options.t)
    (verify : option Verify) :
  defaulted (Some (defaulted options)) = defaulted options
  /\ Strategy (Some (defaulted options)) verify = Strategy options verify.
Proof.
  assert (defaulted (Some (defaulted options)) = defaulted options) as Hsame.
  { unfold defaulted. cbv zeta.
    cbn [from_option id Options.clientID Options.clientSecret
         Options.callbackURL Options.authorizationURL Options.tokenURL
         Options.profileURL Options.profileFields].
    by rewrite !or_string_idempotent. }
  split; [exact Hsame|]. rewrite !Strategy_unfold, Hsame. reflexivity.
Qed.

(** X11.  On Node, construction succeeds exactly when a [verify] callback
    and a [clientID] that is not empty are given, whatever the other
    options are; otherwise it throws a [TypeError]. *)
Theorem Strategy_succeeds (provider : string -> string -> option Node.oauth_error * string)
    (options : option Options.t) (verify : option unit) :
  let given := default Options.empty options in
  ((exists this, Strategy (R := Node.runtime provider) options verify
                 = Normal this)
   <-> is_Some verify
       /\ exists clientID,
            Options.clientID given = Some clientID /\ clientID <> "")
  /\ ((forall this, Strategy (R := Node.runtime provider) options verify
                    <> Normal this) ->
      Strategy (R := Node.runtime provider) options verify = Throw TypeError).
Proof.
  intros given. rewrite Strategy_unfold.
  change (@OAuth2Strategy (Node.runtime provider))
    with (@Node.OAuth2Strategy unit).
  unfold Node.OAuth2Strategy, defaulted. fold given.
  cbn [Options.authorizationURL Options.tokenURL Options.clientID
       Options.clientSecret].
  assert (forall x d, d <> "" ->
            Some (or_string x d) ≫= Node.nonempty = Some (or_string x d))
    as Hkept.
  { intros x d Hd. cbn. unfold Node.nonempty. case_decide as Hempty; [|done].
    by apply or_string_nonempty in Hempty. }
  rewrite !Hkept by done. clear Hkept.
  destruct verify as [[]|].
  - destruct (Options.clientID given) as [clientID|] eqn:Hid; cbn.
    + unfold Node.nonempty. case_decide as Hempty; cbn.
      * split; [|done]. split; [by intros [? ?]|].
        intros [_ (clientID' & [= <-] & Hne)]. done.
      * split; [|intros Hnone; by edestruct Hnone].
        split; [|by eexists]. intros _. split; [by eexists|]. by eexists.
    + split; [|done]. split; [by intros [? ?]|]. by intros [_ (? & ? & _)].
  - split; [|done]. split; [by intros [? ?]|]. by intros [[? ?] _].
Qed.

(** X12.  On Node, a strategy constructed from options with no profile
    endpoint, or an empty one, and no field list requests
    [https://graph.instagram.com/me?fields=id,username], whatever the
    other options are. *)
Theorem Strategy_request_url (provider : string -> string -> option Node.oauth_error * string)
    (options : option Options.t) (verify : option unit)
    (this : This.t Node.OAuth2) :
  Strategy (R := Node.runtime provider) options verify = Normal this ->
  Options.profileURL (default Options.empty options) = None
  \/ Options.profileURL (default Options.empty options) = Some "" ->
  Options.profileFields (default Options.empty options) = None ->
  request_url (R := Node.runtime provider) this
  = "https://graph.instagram.com/me?fields=id,username".
Proof.
  rewrite Strategy_unfold. destruct OAuth2Strategy as [engine|e]; [|done].
  intros [= <-] Hurl Hfields. rewrite Hfields.
  by destruct Hurl as [-> | ->]; vm_compute.
Qed.

Lemma Strategy_request_url_documented :
  Strategy (R := Example.answering (None, Example.alice))
    (Some (Example.options None None)) (Some tt)
  = Normal (Example.this "https://graph.instagram.com/me" ["id"; "username"])
  /\ request_url (R := Example.answering (None, Example.alice))
       (Example.this "https://graph.instagram.com/me" ["id"; "username"])
     = "https://graph.instagram.com/me?fields=id,username".
Proof.
  assert (Strategy (R := Example.answering (None, Example.alice))
            (Some (Example.options None None)) (Some tt)
          = Normal (Example.this "https://graph.instagram.com/me"
                                 ["id"; "username"])) as Hnew
    by (by vm_compute).
  split; [exact Hnew|].
  exact (Strategy_request_url (fun _ _ => (None, Example.alice))
           (Some (Example.options None None)) (Some tt) _
           Hnew (or_introl eq_refl) eq_refl).
Defined.
